(** * gen_headers.py: generator of the XSigma configuration headers

    A shallow embedding of [Library/Core/gen_headers.py] and the
    verification of its command-line behaviour: which file is written
    with which text, what is printed, and how the process exits.

    The script talks to three pieces of the outside world: the argument
    vector [sys.argv], the standard output, and the file system.  They are
    modelled as an explicit [world] that is threaded through a small
    state-and-exception monad, so that the embedded script reads like the
    Python text. *)

From Stdlib Require Import Ascii ZArith.
From stdpp Require Import gmap strings list fin_maps.

Local Open Scope Z_scope.

(** ** Characters that cannot be written inside a literal *)

Definition newline : string := String "010"%char EmptyString.
Definition dquote : string := String "034"%char EmptyString.

(** ** The world of a Python process *)

(** The file system: the text of every existing file, and which paths the
    environment lets the process open for writing (the parent directory
    exists and the permissions allow it). *)
Record filesystem := FileSystem {
  files : gmap string string;
  openable : string → bool
}.

Inductive open_mode := mode_w | mode_a.

(** The file operations a process performs, as an observer of its system
    calls would record them. *)
Inductive event :=
| EvOpen (path : string) (mode : open_mode)
| EvWrite (path text : string)
| EvClose (path : string).

(** [io_log] is the record of the file operations done so far, oldest
    first; the script never reads it. *)
Record world := World {
  fs : filesystem;
  stdout : string;
  io_log : list event
}.

(** Exceptions that the statements of the script can raise. *)
Inductive exn :=
| SystemExit (code : Z)
| OSError (path : string)
| TypeError
| IndexError.

Inductive result (A : Type) :=
| Ok (a : A)
| Raise (e : exn).
Arguments Ok {A} a.
Arguments Raise {A} e.

(** A statement: runs in a world, finishes normally or with an exception. *)
Definition py (A : Type) : Type := world → result A * world.

#[global] Instance py_ret : MRet py := λ A a w, (Ok a, w).
#[global] Instance py_bind : MBind py := λ A B k m w,
  match m w with
  | (Ok a, w') => k a w'
  | (Raise e, w') => (Raise e, w')
  end.

Definition raise {A} (e : exn) : py A := λ w, (Raise e, w).

(** What the interpreter reports to the parent process: falling off the end
    of the script is status 0, [SystemExit] carries its own status, and any
    other exception is uncaught (traceback on the standard error, status 1). *)
Definition exit_status {A} (r : result A) : Z :=
  match r with
  | Ok _ => 0
  | Raise (SystemExit code) => code
  | Raise _ => 1
  end.

(** ** The builtins the script uses *)

(** [print(s)]: the text and a newline go to the standard output. *)
Definition print (s : string) : py unit := λ w,
  (Ok tt, {| fs := fs w; stdout := stdout w +:+ s +:+ newline; io_log := io_log w |}).

(** [sys.exit(code)] *)
Definition sys_exit {A} (code : Z) : py A := raise (SystemExit code).

(** [argv[i]] *)
Definition getitem (argv : list string) (i : nat) : py string :=
  match argv !! i with
  | Some s => mret s
  | None => raise IndexError
  end.

(** Truth value of a [str] or [None]: only [None] and the empty string are
    false. *)
Definition truthy (v : option string) : bool :=
  match v with
  | Some s => negb (String.eqb s "")
  | None => false
  end.

(** A file object opened for writing: the path it writes to. *)
Record file := File { file_path : string }.

Definition set_file (p text : string) (w : world) : world :=
  {| fs := {| files := <[p := text]> (files (fs w)); openable := openable (fs w) |};
     stdout := stdout w;
     io_log := io_log w |}.

Definition log_event (e : event) (w : world) : world :=
  {| fs := fs w; stdout := stdout w; io_log := io_log w ++ [e] |}.

(** [open(path, mode)]: mode ['w'] creates the file or truncates it to the
    empty text, mode ['a'] creates it or keeps its text.  A path that is
    [None] is a [TypeError]; a path the environment refuses is an
    [OSError], and nothing is touched. *)
Definition open_ (path : option string) (mode : open_mode) : py file :=
  match path with
  | None => raise TypeError
  | Some p => λ w,
      if openable (fs w) p then
        let text :=
          match mode with
          | mode_w => ""
          | mode_a => default "" (files (fs w) !! p)
          end in
        (Ok (File p), log_event (EvOpen p mode) (set_file p text w))
      else (Raise (OSError p), w)
  end.

(** [f.write(text)]: the text goes after what the file holds. *)
Definition write (f : file) (text : string) : py unit := λ w,
  let p := file_path f in
  (Ok tt, log_event (EvWrite p text)
            (set_file p (default "" (files (fs w) !! p) +:+ text) w)).

(** [f.close()]; writes are not buffered in this model. *)
Definition close (f : file) : py unit := λ w,
  (Ok tt, log_event (EvClose (file_path f)) w).

(** [try: body finally: cleanup] *)
Definition try_finally {A} (body : py A) (cleanup : py unit) : py A := λ w,
  match body w with
  | (Ok a, w') => (cleanup ;; mret a) w'
  | (Raise e, w') => (cleanup ;; raise e) w'
  end.

(** [with open(path, mode) as f: body]: the file is closed on the way out,
    whether the body finishes or raises. *)
Definition with_open {A} (path : option string) (mode : open_mode)
    (body : file → py A) : py A :=
  f ← open_ path mode;
  try_finally (body f) (close f).

(** ** The script *)

Definition gen_version_macros (output_file : option string) : py unit :=
  let content :=
"#ifndef XSIGMA_VERSION_MACROS_H
#define XSIGMA_VERSION_MACROS_H

#define XSIGMA_MAJOR_VERSION 1
#define XSIGMA_MINOR_VERSION 0
#define XSIGMA_BUILD_VERSION 0
#define XSIGMA_VERSION_FULL " +:+ dquote +:+ "1.0.0" +:+ dquote +:+ "

#endif // XSIGMA_VERSION_MACROS_H
" in
  with_open output_file mode_w (λ f, write f content).

Definition gen_threads_header (output_file : option string) (use_win32 : bool) : py unit :=
  let content :=
    if use_win32 then
"#ifndef XSIGMA_THREADS_H
#define XSIGMA_THREADS_H

#define XSIGMA_USE_WIN32_THREADS 1
#define XSIGMA_MAX_THREADS 64

#endif // XSIGMA_THREADS_H
"
    else
"#ifndef XSIGMA_THREADS_H
#define XSIGMA_THREADS_H

#define XSIGMA_USE_PTHREADS 1
#define XSIGMA_MAX_THREADS 64

#endif // XSIGMA_THREADS_H
" in
  with_open output_file mode_w (λ f, write f content).

(** The body under [if __name__ == '__main__':], over [sys.argv]. *)
Definition main (argv : list string) : py unit :=
  (if bool_decide (length argv < 2)%nat then
     print "Usage: gen_headers.py <command> [output_file]" ;;
     sys_exit 1
   else mret tt) ;;
  command ← getitem argv 1;
  output_file ← (if bool_decide (2 < length argv)%nat
                 then p ← getitem argv 2; mret (Some p)
                 else mret None);
  if String.eqb command "version" && truthy output_file then
    gen_version_macros output_file
  else if String.eqb command "threads" && truthy output_file then
    use_win32 ← (if bool_decide (3 < length argv)%nat
                 then a ← getitem argv 3; mret (String.eqb a "win32")
                 else mret false);
    gen_threads_header output_file use_win32
  else
    print ("Unknown command: " +:+ command) ;;
    sys_exit 1.

(** ** The header texts of the specification *)

Module Spec.

(** A text file: every line is ended by a newline. *)
Definition text_of_lines (ls : list string) : string :=
  foldr (λ l acc, l +:+ newline +:+ acc) "" ls.

Definition version_header : string :=
  text_of_lines
    [ "#ifndef XSIGMA_VERSION_MACROS_H";
      "#define XSIGMA_VERSION_MACROS_H";
      "";
      "#define XSIGMA_MAJOR_VERSION 1";
      "#define XSIGMA_MINOR_VERSION 0";
      "#define XSIGMA_BUILD_VERSION 0";
      "#define XSIGMA_VERSION_FULL " +:+ dquote +:+ "1.0.0" +:+ dquote;
      "";
      "#endif // XSIGMA_VERSION_MACROS_H" ].

(** The two variants of the threads header differ in one macro name only. *)
Definition threads_header (macro : string) : string :=
  text_of_lines
    [ "#ifndef XSIGMA_THREADS_H";
      "#define XSIGMA_THREADS_H";
      "";
      "#define " +:+ macro +:+ " 1";
      "#define XSIGMA_MAX_THREADS 64";
      "";
      "#endif // XSIGMA_THREADS_H" ].

Definition pthreads_header : string := threads_header "XSIGMA_USE_PTHREADS".
Definition win32_header : string := threads_header "XSIGMA_USE_WIN32_THREADS".

Definition is_header (text : string) : Prop :=
  text = version_header ∨ text = pthreads_header ∨ text = win32_header.

(** [needle] occurs somewhere in [hay]. *)
Definition occurs (needle hay : string) : Prop :=
  ∃ before after, hay = before +:+ needle +:+ after.

End Spec.

(** A decision procedure for [Spec.occurs]. *)
Fixpoint starts_with (needle hay : string) : bool :=
  match needle, hay with
  | EmptyString, _ => true
  | String _ _, EmptyString => false
  | String a needle', String b hay' => Ascii.eqb a b && starts_with needle' hay'
  end.

Fixpoint occursb (needle hay : string) : bool :=
  starts_with needle hay ||
  match hay with
  | EmptyString => false
  | String _ hay' => occursb needle hay'
  end.

(** ** What an observer sees of one run *)

(** The world after [print(s)]. *)
Definition printed (s : string) (w : world) : world :=
  {| fs := fs w; stdout := stdout w +:+ s +:+ newline; io_log := io_log w |}.

(** The world after a file was opened with mode ['w'], given [text] in one
    write, and closed. *)
Definition emitted (path text : string) (w : world) : world :=
  {| fs := {| files := <[path := text]> (files (fs w)); openable := openable (fs w) |};
     stdout := stdout w;
     io_log := io_log w ++ [EvOpen path mode_w; EvWrite path text; EvClose path] |}.

(** No file was created, truncated or written between [w] and [w']. *)
Definition writes_no_file (w w' : world) : Prop :=
  fs w' = fs w ∧ io_log w' = io_log w.

(** A header was emitted between [w] and [w']: one file was opened for
    writing, received one of the header texts, and holds it. *)
Definition header_emitted (w w' : world) : Prop :=
  ∃ path text,
    Spec.is_header text ∧
    io_log w' = io_log w ++ [EvOpen path mode_w; EvWrite path text; EvClose path] ∧
    files (fs w') !! path = Some text.

(** The three ways an argument vector fails to name a header to write. *)
Definition command_missing (argv : list string) : Prop :=
  argv !! 1%nat = None.

Definition command_unknown (argv : list string) : Prop :=
  ∃ command, argv !! 1%nat = Some command ∧
    command ≠ "version" ∧ command ≠ "threads".

Definition command_incomplete (argv : list string) : Prop :=
  ∃ command, argv !! 1%nat = Some command ∧
    (command = "version" ∨ command = "threads") ∧
    (argv !! 2%nat = None ∨ argv !! 2%nat = Some "").



(** The usage line. *)
Definition usage : string := "Usage: gen_headers.py <command> [output_file]".

(** [argv] names a header to write: the text [text], at [path]. *)
Definition selects (argv : list string) (path text : string) : Prop :=
  argv !! 2%nat = Some path ∧ path ≠ "" ∧
  ((argv !! 1%nat = Some "version" ∧ text = Spec.version_header) ∨
   (argv !! 1%nat = Some "threads" ∧
    text = if bool_decide (argv !! 3%nat = Some "win32")
           then Spec.win32_header else Spec.pthreads_header)).


(** ** Two sample worlds *)

(** A build directory that already holds a stale threads header. *)
Definition build_dir : world :=
  {| fs := {| files := {[ "xsigma_threads.h" := "stale" ]};
              openable := λ _, true |};
     stdout := "";
     io_log := [] |}.

(** The same directory, mounted read-only: every path is refused. *)
Definition read_only_dir : world :=
  {| fs := {| files := {[ "xsigma_threads.h" := "stale" ]};
              openable := λ _, false |};
     stdout := "";
     io_log := [] |}.

(** ** The builtins, step by step *)

Lemma truthy_some p : truthy (Some p) = true ↔ p ≠ "".
Proof.
  unfold truthy. rewrite negb_true_iff. split.
  - intros H ->. discriminate.
  - intros H. by apply String.eqb_neq.
Qed.

(** Opening with mode ['w'] and writing once leaves exactly the written
    text, whatever the file held (or whether it existed). *)
Lemma with_open_w_write p text w :
  with_open (Some p) mode_w (λ f, write f text) w =
    if openable (fs w) p then (Ok tt, emitted p text w)
    else (Raise (OSError p), w).
Proof.
  unfold with_open, mbind, py_bind, open_.
  destruct (openable (fs w) p) eqn:Hp; [|done].
  unfold try_finally, write, close, mbind, py_bind, mret, py_ret,
    log_event, set_file, emitted; simpl.
  rewrite lookup_insert_eq, insert_insert_eq; simpl.
  by rewrite <- !app_assoc.
Qed.

(** ** The two generators *)

Lemma gen_version_macros_run p w :
  gen_version_macros (Some p) w =
    if openable (fs w) p then (Ok tt, emitted p Spec.version_header w)
    else (Raise (OSError p), w).
Proof. unfold gen_version_macros. by rewrite with_open_w_write. Qed.

Lemma gen_threads_header_run p use_win32 w :
  gen_threads_header (Some p) use_win32 w =
    if openable (fs w) p
    then (Ok tt, emitted p (if use_win32 then Spec.win32_header
                            else Spec.pthreads_header) w)
    else (Raise (OSError p), w).
Proof.
  unfold gen_threads_header. rewrite with_open_w_write.
  by destruct use_win32.
Qed.

(** ** The dispatch *)

Ltac len_decide :=
  repeat first
    [ rewrite bool_decide_eq_true_2 by (simpl; lia)
    | rewrite bool_decide_eq_false_2 by (simpl; lia) ].

(** Fewer than two entries in [sys.argv]: usage line, [sys.exit(1)]. *)
Lemma main_no_command argv w :
  argv !! 1%nat = None →
  main argv w = (Raise (SystemExit 1), printed usage w).
Proof.
  intros H. apply lookup_ge_None in H.
  unfold main. len_decide. reflexivity.
Qed.

(** The [else] branch: the command is not one of the two, or the output
    file is false. *)
Lemma main_rejected argv command w :
  argv !! 1%nat = Some command →
  (String.eqb command "version" || String.eqb command "threads")
    && truthy (argv !! 2%nat) = false →
  main argv w =
    (Raise (SystemExit 1), printed ("Unknown command: " +:+ command) w).
Proof.
  intros Hc Hrej.
  destruct argv as [|a0 [|c rest]]; [done..|].
  simpl in Hc. injection Hc as ->.
  unfold main. len_decide.
  destruct rest as [|p rest]; simpl in Hrej |- *.
  - len_decide. unfold mbind, py_bind, mret, py_ret; simpl.
    rewrite !andb_false_r. reflexivity.
  - len_decide. unfold mbind, py_bind, mret, py_ret; simpl.
    destruct (String.eqb command "version"),
      (String.eqb command "threads"); simpl in Hrej |- *;
      rewrite ?Hrej; reflexivity.
Qed.

Lemma main_version argv p w :
  argv !! 1%nat = Some "version" → argv !! 2%nat = Some p → p ≠ "" →
  main argv w = gen_version_macros (Some p) w.
Proof.
  intros Hc Hp Hne.
  destruct argv as [|a0 [|c [|p' rest]]]; [done..|].
  simpl in Hc, Hp. injection Hc as ->. injection Hp as ->.
  apply truthy_some in Hne. simpl in Hne.
  unfold main. len_decide.
  unfold mbind, py_bind, mret, py_ret; simpl.
  by rewrite Hne.
Qed.

Lemma main_threads argv p w :
  argv !! 1%nat = Some "threads" → argv !! 2%nat = Some p → p ≠ "" →
  main argv w =
    gen_threads_header (Some p) (bool_decide (argv !! 3%nat = Some "win32")) w.
Proof.
  intros Hc Hp Hne.
  destruct argv as [|a0 [|c [|p' rest]]]; [done..|].
  simpl in Hc, Hp. injection Hc as ->. injection Hp as ->.
  apply truthy_some in Hne. simpl in Hne.
  unfold main. len_decide.
  unfold mbind, py_bind, mret, py_ret; simpl.
  rewrite Hne; simpl.
  destruct rest as [|v rest]; simpl.
  - len_decide. reflexivity.
  - len_decide. simpl.
    destruct (String.eqb_spec v "win32") as [->|Hv].
    + by rewrite bool_decide_eq_true_2.
    + rewrite bool_decide_eq_false_2; [done|congruence].
Qed.

(** ** Every argument vector falls in one of four classes *)

Lemma selects_is_header argv path text :
  selects argv path text → Spec.is_header text.
Proof.
  intros (_ & _ & [[_ ->]|[_ ->]]); unfold Spec.is_header; [tauto|].
  case_bool_decide; tauto.
Qed.

Lemma argv_cases argv :
  command_missing argv ∨ command_unknown argv ∨ command_incomplete argv ∨
  ∃ path text, selects argv path text.
Proof.
  unfold command_missing, command_unknown, command_incomplete, selects.
  destruct (argv !! 1%nat) as [command|] eqn:Hc; [right|by left].
  destruct (decide (command = "version")) as [->|Hv];
    [|destruct (decide (command = "threads")) as [->|Ht]].
  - right. destruct (argv !! 2%nat) as [p|] eqn:Hp;
      [destruct (decide (p = "")) as [->|Hne]|].
    + left. eauto 10.
    + right. exists p, Spec.version_header. eauto 10.
    + left. eauto 10.
  - right. destruct (argv !! 2%nat) as [p|] eqn:Hp;
      [destruct (decide (p = "")) as [->|Hne]|].
    + left. eauto 10.
    + right. eexists p, _. eauto 10.
    + left. eauto 10.
  - left. eauto.
Qed.

Lemma main_selects argv path text w :
  selects argv path text →
  main argv w =
    if openable (fs w) path then (Ok tt, emitted path text w)
    else (Raise (OSError path), w).
Proof.
  intros (Hp & Hne & [[Hc ->]|[Hc ->]]).
  - rewrite (main_version argv path) by done. apply gen_version_macros_run.
  - rewrite (main_threads argv path) by done. apply gen_threads_header_run.
Qed.

Lemma main_unknown argv command w :
  argv !! 1%nat = Some command →
  command_unknown argv ∨ command_incomplete argv →
  main argv w =
    (Raise (SystemExit 1), printed ("Unknown command: " +:+ command) w).
Proof.
  intros Hc H. apply main_rejected; [done|].
  destruct H as [(c & Hc' & Hv & Ht)|(c & Hc' & _ & [Hp|Hp])].
  - assert (c = command) as -> by congruence.
    apply String.eqb_neq in Hv, Ht. by rewrite Hv, Ht.
  - rewrite Hp. apply andb_false_r.
  - rewrite Hp. apply andb_false_r.
Qed.

(** The script itself never trips over a missing index or a [None] path. *)
Lemma main_result argv w :
  (main argv w).1 = Ok tt ∨ (main argv w).1 = Raise (SystemExit 1) ∨
  ∃ path, (main argv w).1 = Raise (OSError path) ∧
          argv !! 2%nat = Some path ∧ openable (fs w) path = false.
Proof.
  destruct (argv_cases argv) as [H|[H|[H|(path & text & H)]]].
  - rewrite main_no_command by done. auto.
  - destruct H as (c & Hc & ?). rewrite (main_unknown argv c); [auto|done|].
    left. exists c. done.
  - destruct H as (c & Hc & ?). rewrite (main_unknown argv c); [auto|done|].
    right. exists c. done.
  - rewrite (main_selects argv path text) by done.
    destruct (openable (fs w) path) eqn:Ho; [auto|].
    right; right. exists path. destruct H as (? & _). done.
Qed.

(** ** Substring search *)

Lemma starts_with_app needle rest : starts_with needle (needle +:+ rest) = true.
Proof.
  induction needle as [|a needle IH]; simpl; [done|].
  by rewrite Ascii.eqb_refl, IH.
Qed.

Lemma starts_with_inv needle hay :
  starts_with needle hay = true → ∃ rest, hay = needle +:+ rest.
Proof.
  revert hay. induction needle as [|a needle IH]; intros hay H; simpl in *.
  - by exists hay.
  - destruct hay as [|b hay]; [done|].
    apply andb_true_iff in H as [Hab H].
    apply Ascii.eqb_eq in Hab as ->.
    destruct (IH _ H) as [rest ->]. by exists rest.
Qed.

Lemma occursb_unfold needle hay :
  occursb needle hay =
    starts_with needle hay ||
    match hay with
    | EmptyString => false
    | String _ hay' => occursb needle hay'
    end.
Proof. by destruct hay. Qed.

Lemma occursb_spec needle hay :
  occursb needle hay = true ↔ Spec.occurs needle hay.
Proof.
  unfold Spec.occurs. split.
  - induction hay as [|b hay IH]; simpl; intros H.
    + rewrite orb_false_r in H.
      destruct (starts_with_inv _ _ H) as [rest ->]. by exists "", rest.
    + apply orb_true_iff in H as [H|H].
      * destruct (starts_with_inv _ _ H) as [rest Hr]. by exists "", rest.
      * destruct (IH H) as (before & after & ->).
        by exists (String b before), after.
  - intros (before & after & ->).
    induction before as [|b before IH].
    + change (occursb needle (needle +:+ after) = true).
      rewrite occursb_unfold, starts_with_app. done.
    + change (occursb needle (String b (before +:+ needle +:+ after)) = true).
      rewrite occursb_unfold, IH. apply orb_true_r.
Qed.

(** ** Auxiliary facts about the classes and the observations *)

Lemma selects_exclusive argv path text :
  selects argv path text →
  ¬ (command_missing argv ∨ command_unknown argv ∨ command_incomplete argv).
Proof.
  unfold command_missing, command_unknown, command_incomplete.
  intros (Hp & Hne & Hc) [H|[(c & H & Hv & Ht)|(c & _ & _ & [H|H])]].
  - destruct Hc as [[Hc _]|[Hc _]]; congruence.
  - destruct Hc as [[Hc _]|[Hc _]]; congruence.
  - congruence.
  - congruence.
Qed.

Lemma log_not_extended (l : list event) a b c : l ≠ l ++ [a; b; c].
Proof.
  intros H. apply (f_equal length) in H.
  rewrite length_app in H. simpl in H. lia.
Qed.

Lemma emitted_header_emitted path text w :
  Spec.is_header text → header_emitted w (emitted path text w).
Proof.
  intros H. exists path, text. split; [done|]. split; [done|].
  simpl. apply lookup_insert_eq.
Qed.

Lemma printed_not_emitted s w : ¬ header_emitted w (printed s w).
Proof. intros (p & t & _ & H & _). simpl in H. by apply log_not_extended in H. Qed.

Lemma same_not_emitted w : ¬ header_emitted w w.
Proof. intros (p & t & _ & H & _). by apply log_not_extended in H. Qed.

(** The exit status is 0 exactly when a header was emitted; this needs
    nothing of the environment. *)
Lemma status_zero_iff_emitted argv w :
  exit_status (main argv w).1 = 0 ↔ header_emitted w (main argv w).2.
Proof.
  destruct (argv_cases argv) as [H|[H|[H|(path & text & H)]]].
  - rewrite main_no_command by done. simpl.
    split; [done|]. intros []%printed_not_emitted.
  - destruct H as (c & Hc & ?).
    rewrite (main_unknown argv c); [|done|left; by exists c]. simpl.
    split; [done|]. intros []%printed_not_emitted.
  - destruct H as (c & Hc & ?).
    rewrite (main_unknown argv c); [|done|right; by exists c]. simpl.
    split; [done|]. intros []%printed_not_emitted.
  - rewrite (main_selects argv path text) by done.
    destruct (openable (fs w) path); simpl.
    + split; [|done]. intros _.
      apply emitted_header_emitted. by eapply selects_is_header.
    + split; [done|]. intros []%same_not_emitted.
Qed.



(** ** A run that the environment refuses *)

(** Nothing in the script catches the [OSError] of a refused [open]: the
    run ends with an uncaught exception, no output and no file touched. *)
Example read_only_run :
  main ["gen_headers.py"; "version"; "xsigma_version_macros.h"] read_only_dir =
    (Raise (OSError "xsigma_version_macros.h"), read_only_dir).
Proof. reflexivity. Qed.

(** ** The claims *)

(** C1. For every invocation whose first argument is [version] and whose
    second argument is a non-empty output path that the environment lets the
    process open (the specification's valid path), the file at that path
    holds, after the run, exactly the version header of the specification,
    whatever arguments follow. *)
Theorem version_writes_version_header argv path w :
  argv !! 1%nat = Some "version" →
  argv !! 2%nat = Some path →
  path ≠ "" →
  openable (fs w) path = true →
  files (fs (main argv w).2) !! path = Some Spec.version_header.
Proof.
  intros Hc Hp Hne Ho.
  rewrite (main_version argv path), gen_version_macros_run, Ho by done.
  apply lookup_insert_eq.
Qed.

Lemma version_writes_version_header_witness :
  files (fs (main ["gen_headers.py"; "version"; "xsigma_version_macros.h";
                   "win32"; "more"] build_dir).2)
    !! "xsigma_version_macros.h" = Some Spec.version_header.
Proof.
  apply version_writes_version_header;
    [reflexivity | reflexivity | discriminate | reflexivity].
Defined.

(** C2. For every invocation whose first argument is [threads], whose second
    argument is a non-empty output path that the environment lets the
    process open, and which has no third argument or a third argument other
    than [win32], the file at that path holds, after the run, exactly the
    pthreads variant of the threads header. *)
Theorem threads_writes_pthreads_header argv path w :
  argv !! 1%nat = Some "threads" →
  argv !! 2%nat = Some path →
  path ≠ "" →
  (argv !! 3%nat = None ∨ ∃ variant, argv !! 3%nat = Some variant ∧ variant ≠ "win32") →
  openable (fs w) path = true →
  files (fs (main argv w).2) !! path = Some Spec.pthreads_header.
Proof.
  intros Hc Hp Hne Hv Ho.
  rewrite (main_threads argv path), gen_threads_header_run, Ho by done.
  rewrite bool_decide_eq_false_2.
  - apply lookup_insert_eq.
  - destruct Hv as [Hv|(v & Hv & Hne')]; congruence.
Qed.

Lemma threads_writes_pthreads_header_witness :
  files (fs (main ["gen_headers.py"; "threads"; "xsigma_threads.h"; "Win32"]
               build_dir).2)
    !! "xsigma_threads.h" = Some Spec.pthreads_header.
Proof.
  apply threads_writes_pthreads_header;
    [reflexivity | reflexivity | discriminate | | reflexivity].
  right. exists "Win32". split; [reflexivity | discriminate].
Defined.

(** C3. For every invocation whose first argument is [threads], whose second
    argument is a non-empty output path that the environment lets the
    process open, and whose third argument is exactly [win32], the file at
    that path holds, after the run, exactly the win32 variant of the threads
    header, and [XSIGMA_USE_PTHREADS] occurs nowhere in that text. *)
Theorem threads_writes_win32_header argv path w :
  argv !! 1%nat = Some "threads" →
  argv !! 2%nat = Some path →
  path ≠ "" →
  argv !! 3%nat = Some "win32" →
  openable (fs w) path = true →
  ∃ text,
    files (fs (main argv w).2) !! path = Some text ∧
    text = Spec.win32_header ∧
    ¬ Spec.occurs "XSIGMA_USE_PTHREADS" text.
Proof.
  intros Hc Hp Hne Hv Ho. exists Spec.win32_header.
  split; [|split; [done|]].
  - rewrite (main_threads argv path), gen_threads_header_run, Ho by done.
    rewrite bool_decide_eq_true_2 by done.
    apply lookup_insert_eq.
  - intros H%occursb_spec. vm_compute in H. discriminate.
Qed.

Lemma threads_writes_win32_header_witness :
  ∃ text,
    files (fs (main ["gen_headers.py"; "threads"; "xsigma_threads.h"; "win32"]
                 build_dir).2) !! "xsigma_threads.h" = Some text ∧
    text = Spec.win32_header ∧
    ¬ Spec.occurs "XSIGMA_USE_PTHREADS" text.
Proof.
  apply threads_writes_win32_header;
    [reflexivity | reflexivity | discriminate | reflexivity | reflexivity].
Defined.

(** The search is not blind: the pthreads variant does hold the macro. *)
Example pthreads_header_has_macro :
  Spec.occurs "XSIGMA_USE_PTHREADS" Spec.pthreads_header.
Proof. apply occursb_spec. reflexivity. Qed.

(** C4. For every invocation whose first argument is neither [version] nor
    [threads], with or without further arguments, the run prints exactly
    the line [Unknown command: ] followed by that argument, the process
    exits with status 1, and no file is written. *)
Theorem unknown_command_is_rejected argv command w :
  argv !! 1%nat = Some command →
  command ≠ "version" →
  command ≠ "threads" →
  stdout (main argv w).2 =
    stdout w +:+ ("Unknown command: " +:+ command) +:+ newline ∧
  exit_status (main argv w).1 = 1 ∧
  writes_no_file w (main argv w).2.
Proof.
  intros Hc Hv Ht.
  rewrite (main_unknown argv command); [done|done|].
  left. by exists command.
Qed.

Lemma unknown_command_is_rejected_witness :
  stdout (main ["gen_headers.py"; "bogus"; "out.h"; "win32"] build_dir).2 =
    stdout build_dir +:+ ("Unknown command: " +:+ "bogus") +:+ newline ∧
  exit_status (main ["gen_headers.py"; "bogus"; "out.h"; "win32"] build_dir).1 = 1 ∧
  writes_no_file build_dir
    (main ["gen_headers.py"; "bogus"; "out.h"; "win32"] build_dir).2.
Proof.
  apply unknown_command_is_rejected; [reflexivity | discriminate | discriminate].
Defined.

(** C5. For every invocation with a recognized command ([version] or
    [threads]) and no output path argument, the run behaves as for an
    unknown command: it prints exactly the line [Unknown command: ] followed
    by the command, the process exits with status 1, and no file is
    written. *)
Theorem missing_path_is_rejected argv command w :
  argv !! 1%nat = Some command →
  command = "version" ∨ command = "threads" →
  argv !! 2%nat = None →
  stdout (main argv w).2 =
    stdout w +:+ ("Unknown command: " +:+ command) +:+ newline ∧
  exit_status (main argv w).1 = 1 ∧
  writes_no_file w (main argv w).2.
Proof.
  intros Hc Hr Hp.
  rewrite (main_unknown argv command); [done|done|].
  right. exists command. auto.
Qed.

Lemma missing_path_is_rejected_witness :
  stdout (main ["gen_headers.py"; "version"] build_dir).2 =
    stdout build_dir +:+ ("Unknown command: " +:+ "version") +:+ newline ∧
  exit_status (main ["gen_headers.py"; "version"] build_dir).1 = 1 ∧
  writes_no_file build_dir (main ["gen_headers.py"; "version"] build_dir).2.
Proof.
  apply missing_path_is_rejected; [reflexivity | left; reflexivity | reflexivity].
Defined.

(** C6. For every invocation without any argument (no command), the run
    prints the usage line on the standard output, the process exits with
    status 1, and no file is written. *)
Theorem no_argument_prints_usage argv w :
  command_missing argv →
  stdout (main argv w).2 =
    stdout w +:+ "Usage: gen_headers.py <command> [output_file]" +:+ newline ∧
  exit_status (main argv w).1 = 1 ∧
  writes_no_file w (main argv w).2.
Proof. intros H. by rewrite main_no_command. Qed.

Lemma no_argument_prints_usage_witness :
  stdout (main ["gen_headers.py"] build_dir).2 =
    stdout build_dir +:+ "Usage: gen_headers.py <command> [output_file]" +:+ newline ∧
  exit_status (main ["gen_headers.py"] build_dir).1 = 1 ∧
  writes_no_file build_dir (main ["gen_headers.py"] build_dir).2.
Proof. apply no_argument_prints_usage. reflexivity. Defined.





(** C9. For a recognized command ([version] or [threads]) whose second
    argument is present but is the empty string, the run takes the error
    branch, as if the output path were absent: it prints exactly the line
    [Unknown command: ] followed by the command, the process exits with
    status 1, and no file is written. *)
Theorem empty_path_is_rejected argv command w :
  argv !! 1%nat = Some command →
  command = "version" ∨ command = "threads" →
  argv !! 2%nat = Some "" →
  stdout (main argv w).2 =
    stdout w +:+ ("Unknown command: " +:+ command) +:+ newline ∧
  exit_status (main argv w).1 = 1 ∧
  writes_no_file w (main argv w).2.
Proof.
  intros Hc Hr Hp.
  rewrite (main_unknown argv command); [done|done|].
  right. exists command. auto.
Qed.

Lemma empty_path_is_rejected_witness :
  stdout (main ["gen_headers.py"; "threads"; ""; "win32"] build_dir).2 =
    stdout build_dir +:+ ("Unknown command: " +:+ "threads") +:+ newline ∧
  exit_status (main ["gen_headers.py"; "threads"; ""; "win32"] build_dir).1 = 1 ∧
  writes_no_file build_dir
    (main ["gen_headers.py"; "threads"; ""; "win32"] build_dir).2.
Proof.
  apply empty_path_is_rejected; [reflexivity | right; reflexivity | reflexivity].
Defined.

(** C10. On every run that emits a header, for [version] and for [threads]
    alike, nothing is printed on the standard output; the run ends with
    status 0 and the world differs from the one it started in by the write
    of the header to the output path only: every other file is as it was,
    and the file operations are one open, one write and one close. *)
Theorem emission_is_silent argv w :
  header_emitted w (main argv w).2 →
  stdout (main argv w).2 = stdout w ∧
  exit_status (main argv w).1 = 0 ∧
  ∃ path text,
    argv !! 2%nat = Some path ∧ Spec.is_header text ∧
    main argv w = (Ok tt, emitted path text w) ∧
    ∀ other, other ≠ path →
      files (fs (main argv w).2) !! other = files (fs w) !! other.
Proof.
  intros He. apply status_zero_iff_emitted in He.
  destruct (argv_cases argv) as [H|[H|[H|(p & text & H)]]].
  - rewrite main_no_command in He by done. done.
  - destruct H as (c & Hc & H).
    rewrite (main_unknown argv c) in He; [done|done|left; by exists c].
  - destruct H as (c & Hc & H).
    rewrite (main_unknown argv c) in He; [done|done|right; by exists c].
  - rewrite (main_selects argv p text) in * by done.
    destruct (openable (fs w) p); [|done]. simpl.
    split; [done|]. split; [done|].
    exists p, text. split; [apply H|].
    split; [by eapply selects_is_header|]. split; [done|].
    intros other Hne. by apply lookup_insert_ne.
Qed.

Lemma emission_is_silent_witness :
  stdout (main ["gen_headers.py"; "version"; "xsigma_version_macros.h"] build_dir).2 =
    stdout build_dir ∧
  exit_status (main ["gen_headers.py"; "version"; "xsigma_version_macros.h"] build_dir).1 = 0.
Proof.
  destruct (emission_is_silent
    ["gen_headers.py"; "version"; "xsigma_version_macros.h"] build_dir) as (H1 & H2 & _).
  - exists "xsigma_version_macros.h", Spec.version_header.
    split; [left; reflexivity | split; reflexivity].
  - split; [exact H1 | exact H2].
Defined.

(** ** Further properties of the script *)

(** Every run either takes an error branch of the dispatch (one line on the
    standard output, [sys.exit(1)]) or reaches [open] with the header the
    arguments name. *)
Lemma main_dichotomy argv w :
  (¬ (∃ path text, selects argv path text) ∧
   ∃ line, main argv w = (Raise (SystemExit 1), printed line w)) ∨
  (∃ path text, selects argv path text ∧
     main argv w =
       if openable (fs w) path then (Ok tt, emitted path text w)
       else (Raise (OSError path), w)).
Proof.
  destruct (argv_cases argv) as [H|[H|[H|(path & text & H)]]].
  - left. split.
    + intros (p & t & Hs). eapply selects_exclusive; eauto.
    + exists usage. by apply main_no_command.
  - left. split.
    + intros (p & t & Hs). eapply selects_exclusive; eauto.
    + destruct H as (c & Hc & H). exists ("Unknown command: " +:+ c).
      apply main_unknown; [done|]. left. by exists c.
  - left. split.
    + intros (p & t & Hs). eapply selects_exclusive; eauto.
    + destruct H as (c & Hc & H). exists ("Unknown command: " +:+ c).
      apply main_unknown; [done|]. right. by exists c.
  - right. exists path, text. split; [done|]. by apply main_selects.
Qed.

Lemma selects_ext argv argv' path text :
  argv !! 1%nat = argv' !! 1%nat →
  argv !! 2%nat = argv' !! 2%nat →
  argv !! 3%nat = argv' !! 3%nat →
  selects argv path text → selects argv' path text.
Proof. unfold selects. intros <- <- <-. done. Qed.

(** X1. Whatever the argument vector (the empty one included) and whatever
    the environment, the script never indexes [sys.argv] out of range and
    never hands [None] to [open]: no [IndexError] and no [TypeError] leaves
    it. *)
Theorem main_indexing_is_guarded argv w :
  (main argv w).1 ≠ Raise IndexError ∧ (main argv w).1 ≠ Raise TypeError.
Proof.
  destruct (main_result argv w) as [H|[H|(p & H & _)]]; rewrite H; done.
Qed.

(** X3. When the command is [version] or [threads], the output path is not
    empty, and the environment refuses to open it, nothing catches the
    error: the run ends with the [OSError] of that path (status 1), prints
    nothing, and leaves every file as it was. *)
Theorem refused_open_is_uncaught argv command path w :
  argv !! 1%nat = Some command →
  command = "version" ∨ command = "threads" →
  argv !! 2%nat = Some path →
  path ≠ "" →
  openable (fs w) path = false →
  main argv w = (Raise (OSError path), w) ∧
  exit_status (main argv w).1 = 1.
Proof.
  intros Hc Hr Hp Hne Ho.
  assert (∃ text, selects argv path text) as [text Hs].
  { destruct Hr as [-> | ->]; eexists; unfold selects; eauto 10. }
  rewrite (main_selects argv path text), Ho by done. done.
Qed.

Lemma refused_open_is_uncaught_witness :
  main ["gen_headers.py"; "threads"; "xsigma_threads.h"; "win32"] read_only_dir =
    (Raise (OSError "xsigma_threads.h"), read_only_dir) ∧
  exit_status
    (main ["gen_headers.py"; "threads"; "xsigma_threads.h"; "win32"] read_only_dir).1 = 1.
Proof.
  apply (refused_open_is_uncaught _ "threads");
    [reflexivity | right; reflexivity | reflexivity | discriminate | reflexivity].
Defined.

(** X5. A run does at most one thing to the outside: either it performs no
    file operation at all, or it prints nothing and performs exactly one
    open with mode ['w'] of its second argument, one write to it and one
    close of it.  In particular no file is left open, and an error message
    never comes with a written file. *)
Theorem one_file_or_one_message argv w :
  writes_no_file w (main argv w).2 ∨
  (stdout (main argv w).2 = stdout w ∧
   ∃ path text,
     argv !! 2%nat = Some path ∧
     io_log (main argv w).2 =
       io_log w ++ [EvOpen path mode_w; EvWrite path text; EvClose path]).
Proof.
  destruct (main_dichotomy argv w) as [(_ & line & ->)|(p & t & Hs & ->)].
  - by left.
  - destruct (openable (fs w) p); [right|by left].
    split; [done|]. exists p, t. split; [apply Hs|done].
Qed.

Lemma main_ext_rejected argv argv' w :
  argv !! 1%nat = argv' !! 1%nat →
  argv !! 2%nat = argv' !! 2%nat →
  command_missing argv ∨ command_unknown argv ∨ command_incomplete argv →
  main argv w = main argv' w.
Proof.
  unfold command_missing, command_unknown, command_incomplete.
  intros H1 H2 [H|[(c & Hc & H)|(c & Hc & H)]].
  - rewrite !main_no_command; [done| |done]. by rewrite <- H1.
  - rewrite (main_unknown argv c), (main_unknown argv' c); try done.
    + by rewrite <- H1.
    + left. exists c. by rewrite <- H1.
    + left. by exists c.
  - rewrite (main_unknown argv c), (main_unknown argv' c); try done.
    + by rewrite <- H1.
    + right. exists c. by rewrite <- H1, <- H2.
    + right. by exists c.
Qed.

(** X6. A run reads [sys.argv[1]], [sys.argv[2]] and [sys.argv[3]] and
    nothing else of the argument vector: two vectors that agree there give
    the same run, whatever the program name and whatever follows the third
    argument. *)
Theorem unread_arguments_do_not_matter argv argv' w :
  argv !! 1%nat = argv' !! 1%nat →
  argv !! 2%nat = argv' !! 2%nat →
  argv !! 3%nat = argv' !! 3%nat →
  main argv w = main argv' w.
Proof.
  intros H1 H2 H3.
  destruct (argv_cases argv) as [H|[H|[H|(path & text & H)]]];
    [apply main_ext_rejected; auto..|].
  rewrite (main_selects argv path text), (main_selects argv' path text);
    [done| |done].
  by apply (selects_ext argv).
Qed.

Lemma unread_arguments_do_not_matter_witness :
  main ["gen_headers.py"; "threads"; "xsigma_threads.h"; "win32"; "-v"; "x"] build_dir =
  main ["./g"; "threads"; "xsigma_threads.h"; "win32"] build_dir.
Proof.
  apply unread_arguments_do_not_matter; reflexivity.
Defined.

(** X7. The third argument is read by the [threads] command only: for any
    other first argument, two vectors that agree on the command and on the
    output path give the same run. *)
Theorem variant_is_read_by_threads_only argv argv' w :
  argv !! 1%nat = argv' !! 1%nat →
  argv !! 2%nat = argv' !! 2%nat →
  argv !! 1%nat ≠ Some "threads" →
  main argv w = main argv' w.
Proof.
  intros H1 H2 Hnt.
  destruct (argv_cases argv) as [H|[H|[H|(path & text & H)]]];
    [apply main_ext_rejected; auto..|].
  destruct H as (Hp & Hne & [[Hc ->]|[Hc _]]); [|done].
  rewrite (main_selects argv path Spec.version_header),
    (main_selects argv' path Spec.version_header); [done| |].
  - unfold selects. rewrite <- H1, <- H2. auto.
  - unfold selects. auto.
Qed.

Lemma variant_is_read_by_threads_only_witness :
  main ["gen_headers.py"; "version"; "xsigma_version_macros.h"; "win32"] build_dir =
  main ["gen_headers.py"; "version"; "xsigma_version_macros.h"] build_dir.
Proof.
  apply variant_is_read_by_threads_only; [reflexivity | reflexivity | discriminate].
Defined.

(** X9. The script reads no file and no earlier output: how a run ends
    depends on the arguments and on whether the output path can be opened,
    and where it ends normally the text left at the output path is the same
    from any two worlds. *)
Theorem run_reads_nothing argv w w' :
  (∀ path, argv !! 2%nat = Some path →
     openable (fs w) path = openable (fs w') path) →
  (main argv w).1 = (main argv w').1 ∧
  ∀ path, argv !! 2%nat = Some path → (main argv w).1 = Ok tt →
    files (fs (main argv w).2) !! path = files (fs (main argv w').2) !! path.
Proof.
  intros Ho.
  destruct (argv_cases argv) as [H|[H|[H|(p & text & H)]]].
  - rewrite !main_no_command by done. done.
  - destruct H as (c & Hc & H).
    rewrite !(main_unknown argv c); try done; left; by exists c.
  - destruct H as (c & Hc & H).
    rewrite !(main_unknown argv c); try done; right; by exists c.
  - rewrite !(main_selects argv p text) by done.
    rewrite <- (Ho p) by apply H.
    destruct (openable (fs w) p); [|done]. simpl. split; [done|].
    intros path Hp _. assert (p = path) as -> by (destruct H; congruence).
    by rewrite !lookup_insert_eq.
Qed.

Lemma run_reads_nothing_witness :
  (main ["gen_headers.py"; "threads"; "xsigma_threads.h"] build_dir).1 =
  (main ["gen_headers.py"; "threads"; "xsigma_threads.h"]
     (printed "earlier output" build_dir)).1.
Proof.
  apply (run_reads_nothing ["gen_headers.py"; "threads"; "xsigma_threads.h"]).
  intros path _. reflexivity.
Defined.

(** X10. Called on a path that can be opened, [gen_threads_header] leaves a
    text that defines exactly one of the two threading macros, chosen by
    [use_win32], and the thread limit of 64 in both cases. *)
Theorem threads_macros_are_exclusive path use_win32 w :
  openable (fs w) path = true →
  ∃ text,
    files (fs (gen_threads_header (Some path) use_win32 w).2) !! path = Some text ∧
    (Spec.occurs "#define XSIGMA_USE_WIN32_THREADS 1" text ↔ use_win32 = true) ∧
    (Spec.occurs "#define XSIGMA_USE_PTHREADS 1" text ↔ use_win32 = false) ∧
    Spec.occurs "#define XSIGMA_MAX_THREADS 64" text.
Proof.
  intros Ho. rewrite gen_threads_header_run, Ho. simpl.
  eexists. split; [apply lookup_insert_eq|].
  rewrite <- !occursb_spec. by destruct use_win32; vm_compute.
Qed.

Lemma threads_macros_are_exclusive_witness :
  ∃ text,
    files (fs (gen_threads_header (Some "xsigma_threads.h") true build_dir).2)
      !! "xsigma_threads.h" = Some text ∧
    (Spec.occurs "#define XSIGMA_USE_WIN32_THREADS 1" text ↔ true = true) ∧
    (Spec.occurs "#define XSIGMA_USE_PTHREADS 1" text ↔ true = false) ∧
    Spec.occurs "#define XSIGMA_MAX_THREADS 64" text.
Proof. apply threads_macros_are_exclusive. reflexivity. Defined.
